(** * Sail plan tracker: the sail-selection toggle rules, the
      pending/committed comparison and the summary line of [src/main.py].

    The handlers of [main.py] read the pending selection from hidden form
    fields, apply one toggle, build the [pending] dict, compare it with the
    committed dict read from the store and render a summary.  The embedding
    follows these stages one by one:

    - [current_selection]      lines 336-339 (the four [form.get] calls),
    - [apply_toggle]           lines 348-393 (the [if]/[elif] chain),
    - [pending_dict]           lines 395-400,
    - [get_current_sail_config] lines 129-151 (on the record the query yields),
    - [has_changes]            lines 403-408 and 432-437,
    - [format_config_summary]  lines 259-288,
    - [toggle_sail], [toggle_staysail]  the two handlers as a whole.

    Python values are modelled by [pyval]; dicts by [gmap string pyval];
    an exception ([KeyError], [TypeError]) by [None] in the [option] monad. *)

From stdpp Require Import base option strings list gmap fin_maps.

Local Open Scope string_scope.

(** ** Python values and dicts *)

(** The values that occur in the configuration dicts: [None], booleans and
    strings. *)
Inductive pyval : Type :=
  | PNone
  | PBool (b : bool)
  | PStr (s : string).

#[global] Instance pyval_eq_dec : EqDecision pyval.
Proof. solve_decision. Defined.

#[global] Instance pyval_inhabited : Inhabited pyval := populate PNone.

(** Truth value of an object, as [if x], [not x] and [x or y] use it. *)
Definition truthy (v : pyval) : bool :=
  match v with
  | PNone => false
  | PBool b => b
  | PStr s => bool_decide (s ≠ "")
  end.

(** [a or b] *)
Definition py_or (a b : pyval) : pyval := if truthy a then a else b.

(** [a != b] *)
Definition py_ne (a b : pyval) : bool := bool_decide (a ≠ b).

(** [str(v)], which an f-string applies to an interpolated value. *)
Definition py_str (v : pyval) : string :=
  match v with
  | PNone => "None"
  | PBool true => "True"
  | PBool false => "False"
  | PStr s => s
  end.

(** [d.get(k)]: the value, or [None] when the key is missing. *)
Definition dict_get (d : gmap string pyval) (k : string) : pyval :=
  default PNone (d !! k).

(** [d.get(k, dflt)] *)
Definition dict_get_or (d : gmap string pyval) (k : string) (dflt : pyval) : pyval :=
  default dflt (d !! k).

(** [d[k]]: raises [KeyError] when the key is missing. *)
Definition dict_item (d : gmap string pyval) (k : string) : option pyval := d !! k.

(** [form.get(k, dflt)] on the submitted form fields, which are strings. *)
Definition form_get (form : gmap string string) (k dflt : string) : string :=
  default dflt (form !! k).

(** ** The pending selection *)

(** The four locals [current_main], [current_headsail], [current_downwind],
    [current_staysail] (and [new_main], ... after the toggle). *)
Record sail_state : Type := SailState {
  main : string;
  headsail : string;
  downwind : string;
  staysail_mode : bool
}.

#[global] Instance sail_state_eq_dec : EqDecision sail_state.
Proof. solve_decision. Defined.

(** Lines 336-339. *)
Definition current_selection (form : gmap string string) : sail_state :=
  {| main := form_get form "pending_main" "DOWN";
     headsail := form_get form "pending_headsail" "";
     downwind := form_get form "pending_downwind" "";
     staysail_mode := bool_decide (form_get form "pending_staysail" "false" = "true") |}.

(** Lines 348-393: the toggle proper. *)
Definition apply_toggle (cur : sail_state) (category value : string) : sail_state :=
  if decide (category = "main") then
    {| main := if decide (value ≠ main cur) then value else "DOWN";
       headsail := headsail cur;
       downwind := downwind cur;
       staysail_mode := staysail_mode cur |}
  else if decide (category = "headsail") then
    let new_headsail := if decide (value = headsail cur) then "" else value in
    if decide (new_headsail = "") then
      {| main := main cur; headsail := new_headsail;
         downwind := downwind cur; staysail_mode := false |}
    else if decide (new_headsail = "JIB" ∧ downwind cur = "REACHING_SPI") then
      {| main := main cur; headsail := new_headsail;
         downwind := downwind cur; staysail_mode := staysail_mode cur |}
    else
      {| main := main cur; headsail := new_headsail;
         downwind := ""; staysail_mode := false |}
  else if decide (category = "downwind") then
    let new_downwind := if decide (value = downwind cur) then "" else value in
    if decide (new_downwind = "") then
      {| main := main cur; headsail := headsail cur;
         downwind := new_downwind; staysail_mode := false |}
    else if decide (new_downwind = "REACHING_SPI" ∧ headsail cur = "JIB") then
      {| main := main cur; headsail := headsail cur;
         downwind := new_downwind; staysail_mode := staysail_mode cur |}
    else
      {| main := main cur; headsail := "";
         downwind := new_downwind; staysail_mode := false |}
  else
    {| main := main cur; headsail := headsail cur;
       downwind := downwind cur; staysail_mode := staysail_mode cur |}.

(** Lines 424-429: the selection the staysail handler builds; the flag is
    [form.get("pending_staysail", "false") != "true"]. *)
Definition flip_staysail (form : gmap string string) : sail_state :=
  {| main := form_get form "pending_main" "DOWN";
     headsail := form_get form "pending_headsail" "";
     downwind := form_get form "pending_downwind" "";
     staysail_mode := bool_decide (form_get form "pending_staysail" "false" ≠ "true") |}.

(** Lines 395-400: the [pending] dict handed to the template. *)
Definition pending_dict (st : sail_state) : gmap string pyval :=
  <["main" := PStr (main st)]>
  (<["headsail" := PStr (headsail st)]>
  (<["downwind" := PStr (downwind st)]>
  (<["staysail_mode" := PBool (staysail_mode st)]> ∅))).

(** ** The committed configuration *)

(** Lines 129-133: [sanitize(val, default)]. *)
Definition sanitize (val dflt : pyval) : pyval :=
  if decide (val = PNone ∨ val = PStr "None" ∨ val = PStr "NONE") then dflt else val.

(** Line 151: the configuration used when the store has no record. *)
Definition default_config : gmap string pyval :=
  <["main" := PStr "DOWN"]>
  (<["headsail" := PStr ""]>
  (<["downwind" := PStr ""]>
  (<["staysail_mode" := PBool false]>
  (<["comment" := PStr ""]> ∅)))).

(** Lines 135-151.  [latest] is the field table of the first record the
    query yields, or [None] when the query yields nothing or fails. *)
Definition get_current_sail_config (latest : option (gmap string pyval))
  : gmap string pyval :=
  match latest with
  | Some values =>
      <["main" := sanitize (dict_get values "main") (PStr "DOWN")]>
      (<["headsail" := sanitize (dict_get values "headsail") (PStr "")]>
      (<["downwind" := sanitize (dict_get values "downwind") (PStr "")]>
      (<["staysail_mode" := dict_get_or values "staysail_mode" (PBool false)]>
      (<["comment" := sanitize (dict_get values "comment") (PStr "")]> ∅))))
  | None => default_config
  end.

(** ** Pending against committed *)

(** [pending[k] != committed[k]] *)
Definition field_differs (pending committed : gmap string pyval) (k : string)
  : option bool :=
  a ← dict_item pending k;
  b ← dict_item committed k;
  Some (py_ne a b).

(** Lines 403-408 (and 432-437): a chain of [or], evaluated left to right
    and stopping at the first field that differs. *)
Definition has_changes (pending committed : gmap string pyval) : option bool :=
  d ← field_differs pending committed "main";
  if d : bool then Some true else
  d ← field_differs pending committed "headsail";
  if d : bool then Some true else
  d ← field_differs pending committed "downwind";
  if d : bool then Some true else
  field_differs pending committed "staysail_mode".

(** ** The summary line *)

(** [sep.join(parts)] on strings. *)
Fixpoint join (sep : string) (parts : list string) : string :=
  match parts with
  | [] => ""
  | p :: rest =>
      match rest with
      | [] => p
      | _ :: _ => p +:+ sep +:+ join sep rest
      end
  end.

Definition as_str (v : pyval) : option string :=
  match v with
  | PStr s => Some s
  | _ => None
  end.

(** [sep.join(parts)] on values: a [TypeError] unless every item is a string. *)
Definition py_join (sep : string) (parts : list pyval) : option string :=
  strs ← mapM as_str parts; Some (join sep strs).

(** [name += suffix]: a [TypeError] unless [name] is a string. *)
Definition py_iadd_str (name : pyval) (suffix : string) : option pyval :=
  s ← as_str name; Some (PStr (s +:+ suffix)).

Section summary.

(** The [display] table of the boat configuration file (line 61). *)
Variable SAIL_DISPLAY : gmap string string.

(** [SAIL_DISPLAY.get(v, v)]; the keys of the table are strings. *)
Definition display (v : pyval) : pyval :=
  match v with
  | PStr s => PStr (default s (SAIL_DISPLAY !! s))
  | _ => v
  end.

(** [if x and x != "None"] *)
Definition is_selected (v : pyval) : bool := truthy v && py_ne v (PStr "None").

(** Lines 259-288. *)
Definition format_config_summary (config : gmap string pyval) : option string :=
  let main0 := py_or (dict_get config "main") (PStr "DOWN") in
  let is_down := bool_decide (main0 = PStr "DOWN" ∨ main0 = PStr "None") in
  let main1 := if is_down then PStr "DOWN" else main0 in
  let parts0 :=
    if is_down then [PStr "Main: DOWN"] else [PStr ("Main: " +:+ py_str main0)] in
  let headsail0 := py_or (dict_get config "headsail") (PStr "") in
  hp ← (if is_selected headsail0 then
          let name := display headsail0 in
          name' ← (if truthy (dict_get config "staysail_mode")
                   then py_iadd_str name " (S)" else Some name);
          Some (headsail0, (parts0 ++ [name'])%list)
        else Some (PStr "", parts0));
  let headsail1 := hp.1 in
  let parts1 := hp.2 in
  let downwind0 := py_or (dict_get config "downwind") (PStr "") in
  let downwind1 := if is_selected downwind0 then downwind0 else PStr "" in
  let parts2 :=
    if is_selected downwind0 then (parts1 ++ [display downwind0])%list else parts1 in
  if negb (truthy headsail1) && negb (truthy downwind1)
     && bool_decide (main1 = PStr "DOWN")
  then Some "All sails down"
  else py_join " + " parts2.

(** ** The handlers *)

(** What the handlers pass to the [sail_selector] template. *)
Record selector_context : Type := SelectorContext {
  ctx_pending : gmap string pyval;
  ctx_committed : gmap string pyval;
  ctx_has_changes : bool;
  ctx_summary : string
}.

(** Lines 402-416 and 431-445, the same in both handlers: compare with the
    committed configuration, format the summary, fill the context. *)
Definition render (pending committed : gmap string pyval) : option selector_context :=
  changed ← has_changes pending committed;
  summary ← format_config_summary pending;
  Some {| ctx_pending := pending; ctx_committed := committed;
          ctx_has_changes := changed; ctx_summary := summary |}.

(** Lines 325-416. *)
Definition toggle_sail (form : gmap string string) (category value : string)
    (latest : option (gmap string pyval)) : option selector_context :=
  render (pending_dict (apply_toggle (current_selection form) category value))
         (get_current_sail_config latest).

(** Lines 419-445. *)
Definition toggle_staysail (form : gmap string string)
    (latest : option (gmap string pyval)) : option selector_context :=
  render (pending_dict (flip_staysail form)) (get_current_sail_config latest).

End summary.

(** * The vocabulary of the specification *)

(** The one combination in which a headsail and a downwind sail co-exist. *)
Definition allowed_pair (st : sail_state) : Prop :=
  headsail st = "JIB" ∧ downwind st = "REACHING_SPI".

(** The staysail flag is set only over the allowed pair. *)
Definition staysail_only_with_pair (st : sail_state) : Prop :=
  staysail_mode st = true → allowed_pair st.

(** The hidden form fields that carry a selection back to the server. *)
Definition pending_form (st : sail_state) : gmap string string :=
  <["pending_main" := main st]>
  (<["pending_headsail" := headsail st]>
  (<["pending_downwind" := downwind st]>
  (<["pending_staysail" := if staysail_mode st then "true" else "false"]> ∅))).

(** The same toggle, twice. *)
Definition toggle_twice (st : sail_state) (category value : string) : sail_state :=
  apply_toggle (apply_toggle st category value) category value.

(** The four fields the comparison reads. *)
Definition sail_fields : list string :=
  ["main"; "headsail"; "downwind"; "staysail_mode"].

(** A dict is a configuration when it carries the four fields. *)
Definition is_configuration (d : gmap string pyval) : Prop :=
  ∀ k, k ∈ sail_fields → is_Some (d !! k).

(** The summary in the words of the specification, over the three sails as
    strings and the staysail flag: [is_down] says when [main] counts as
    down, [is_unset] when a headsail or downwind field counts as unset. *)
Definition summary_of (SAIL_DISPLAY : gmap string string)
    (is_down is_unset : string → bool)
    (m h d : string) (staysail : bool) : string :=
  if is_down m && is_unset h && is_unset d then "All sails down"
  else
    join " + "
      ([if is_down m then "Main: DOWN" else "Main: " +:+ m]
       ++ (if is_unset h then []
           else [if staysail then default h (SAIL_DISPLAY !! h) +:+ " (S)"
                 else default h (SAIL_DISPLAY !! h)])
       ++ (if is_unset d then [] else [default d (SAIL_DISPLAY !! d)]))%list.

(** The reading of the specification: down is the sentinel, unset is empty. *)
Definition is_sentinel (m : string) : bool := bool_decide (m = "DOWN").
Definition is_empty (s : string) : bool := bool_decide (s = "").

(** What the code takes for down and for unset. *)
Definition reads_down (m : string) : bool :=
  bool_decide (m = "" ∨ m = "DOWN" ∨ m = "None").
Definition reads_unset (s : string) : bool :=
  bool_decide (s = "" ∨ s = "None").

(** A sail field holds a string or nothing. *)
Definition is_text (v : pyval) : Prop :=
  match v with
  | PBool _ => False
  | _ => True
  end.

(** The string a text field stands for; a missing or null field is empty. *)
Definition text_of (v : pyval) : string :=
  match v with
  | PStr s => s
  | _ => ""
  end.

Definition text_fields (config : gmap string pyval) : Prop :=
  is_text (dict_get config "main")
  ∧ is_text (dict_get config "headsail")
  ∧ is_text (dict_get config "downwind").

(** A display table in the shape of the example boat configuration. *)
Definition display_fixture : gmap string string :=
  <["JIB" := "Jib"]> (<["GENOA" := "Genoa"]> (<["REACHING_SPI" := "Reaching Spi"]> ∅)).

(** * The store, the history and the position *)

(** ** Writing a configuration *)

(** Lines 169-182 of [write_sail_config]: the fields of the point handed to
    the store; an empty headsail or downwind goes in as the placeholder. *)
Definition point_fields (main headsail downwind : string) (staysail_mode : bool)
    (comment : string) : gmap string pyval :=
  let headsail := if truthy (PStr headsail) then headsail else "NONE" in
  let downwind := if truthy (PStr downwind) then downwind else "NONE" in
  <["main" := PStr main]>
  (<["headsail" := PStr headsail]>
  (<["downwind" := PStr downwind]>
  (<["staysail_mode" := PBool staysail_mode]>
  (<["comment" := PStr comment]> ∅)))).

(** Lines 453-457 and 473 of [save_config]: the fields written for a form. *)
Definition save_fields (form : gmap string string) : gmap string pyval :=
  point_fields (form_get form "pending_main" "DOWN")
    (form_get form "pending_headsail" "")
    (form_get form "pending_downwind" "")
    (bool_decide (form_get form "pending_staysail" "false" = "true"))
    (form_get form "comment" "").

(** ** Reading the history *)

(** Lines 208-212: the one-argument [sanitize] of [get_recent_entries]. *)
Definition sanitize_entry (val : pyval) : pyval :=
  if decide (val = PNone ∨ val = PStr "None" ∨ val = PStr "NONE") then PStr "" else val.

(** Lines 219-226: the entry built for one record, without its [time]. *)
Definition recent_entry (values : gmap string pyval) : gmap string pyval :=
  <["main" := py_or (sanitize_entry (dict_get values "main")) (PStr "DOWN")]>
  (<["headsail" := sanitize_entry (dict_get values "headsail")]>
  (<["downwind" := sanitize_entry (dict_get values "downwind")]>
  (<["staysail_mode" := dict_get_or values "staysail_mode" (PBool false)]>
  (<["comment" := sanitize_entry (dict_get values "comment")]> ∅)))).


(** Lines 503-517 (and 540-554): the [config] text of one history entry. *)
Definition history_config (SAIL_DISPLAY : gmap string string)
    (entry : gmap string pyval) : option string :=
  m ← dict_item entry "main";
  let parts0 := if truthy m then [PStr ("M:" +:+ py_str m)] else [] in
  h ← dict_item entry "headsail";
  parts1 ← (if truthy h then
              let name := display SAIL_DISPLAY h in
              s ← dict_item entry "staysail_mode";
              name' ← (if truthy s then py_iadd_str name "(S)" else Some name);
              Some (parts0 ++ [name'])%list
            else Some parts0);
  d ← dict_item entry "downwind";
  let parts2 :=
    if truthy d then (parts1 ++ [display SAIL_DISPLAY d])%list else parts1 in
  match parts2 with
  | [] => Some "All down"
  | _ :: _ => py_join " + " parts2
  end.

(** ** The position of the boat *)

Section position.

(** JSON numbers are only handed on. *)
Variable num : Type.

(** What [response.json()] yields. *)
#[warnings="-register-all"]
Inductive json : Type :=
  | JNull
  | JBool (b : bool)
  | JNum (n : num)
  | JStr (s : string)
  | JArr (items : list json)
  | JObj (members : gmap string json).

(** [v.get(k, dflt)]: an [AttributeError] unless [v] is a dict. *)
Definition json_get (v : json) (k : string) (dflt : json) : option json :=
  match v with
  | JObj members => Some (default dflt (members !! k))
  | _ => None
  end.

(** [v] is a dict, the one kind of value that has [get]. *)
Definition is_dict (v : json) : bool :=
  match v with
  | JObj _ => true
  | _ => false
  end.

(** [v is not None] *)
Definition is_not_none (v : json) : bool :=
  match v with
  | JNull => false
  | _ => true
  end.

(** Lines 79-94.  [response] is [None] when the request raises a
    [RequestException], else the status code and the parsed body (a body
    that does not parse is not covered).  The outer
    [None] of the result is an exception that leaves the function, the inner
    one the value [None]. *)
Definition get_boat_position (response : option (Z * json))
  : option (option (json * json)) :=
  match response with
  | None => Some None
  | Some (status_code, data) =>
      if decide (status_code = 200%Z) then
        value ← json_get data "value" (JObj ∅);
        lat ← json_get value "latitude" JNull;
        value' ← json_get data "value" (JObj ∅);
        lon ← json_get value' "longitude" JNull;
        if is_not_none lat && is_not_none lon then Some (Some (lat, lon))
        else Some None
      else Some None
  end.

End position.

Arguments JNull {num}.
Arguments JBool {num} b.
Arguments JNum {num} n.
Arguments JStr {num} s.
Arguments JArr {num} items.
Arguments JObj {num} members.
Arguments json_get {num} v k dflt.
Arguments is_not_none {num} v.
Arguments is_dict {num} v.
Arguments get_boat_position {num} response.

(** ** Vocabulary for the store and for runs of toggles *)

(** The two spellings the readers take for no value. *)
Definition is_placeholder (s : string) : bool :=
  bool_decide (s = "None" ∨ s = "NONE").

(** A string as the reader of the current configuration gives it back. *)
Definition read_back (s dflt : string) : string :=
  if is_placeholder s then dflt else s.

(** A configuration as [get_current_sail_config] lays it out. *)
Definition config_dict (st : sail_state) (comment : string) : gmap string pyval :=
  <["main" := PStr (main st)]>
  (<["headsail" := PStr (headsail st)]>
  (<["downwind" := PStr (downwind st)]>
  (<["staysail_mode" := PBool (staysail_mode st)]>
  (<["comment" := PStr comment]> ∅)))).

(** The five keys a stored record is read by. *)
Definition config_keys : list string :=
  ["main"; "headsail"; "downwind"; "staysail_mode"; "comment"].

(** Two field tables agree on the keys the readers look at. *)
Definition same_fields (values values' : gmap string pyval) : Prop :=
  ∀ k, k ∈ config_keys → values !! k = values' !! k.

(** Headsail and downwind exclude each other, the allowed pair apart. *)
Definition exclusive (st : sail_state) : Prop :=
  headsail st = "" ∨ downwind st = "" ∨ allowed_pair st.

Definition well_formed (st : sail_state) : Prop :=
  exclusive st ∧ staysail_only_with_pair st.

(** A run of toggles, each given by its category and value. *)
Definition run_toggles (st : sail_state) (toggles : list (string * string)) : sail_state :=
  foldl (λ cur t, apply_toggle cur t.1 t.2) st toggles.

(** The history text of a selection, in closed form. *)
Definition history_of (SAIL_DISPLAY : gmap string string)
    (m h d : string) (staysail : bool) : string :=
  join " + "
    (["M:" +:+ (if bool_decide (m = "") then "DOWN" else m)]
     ++ (if bool_decide (h = "") then []
         else [if staysail then default h (SAIL_DISPLAY !! h) +:+ "(S)"
               else default h (SAIL_DISPLAY !! h)])
     ++ (if bool_decide (d = "") then [] else [default d (SAIL_DISPLAY !! d)]))%list.

(** * Sanity checks on concrete inputs *)

(** Jib, then reaching spinnaker, then the staysail, then a genoa. *)
Example scenario :
  let s0 := current_selection ∅ in
  let s1 := apply_toggle s0 "headsail" "JIB" in
  let s2 := apply_toggle s1 "downwind" "REACHING_SPI" in
  let s3 := flip_staysail (pending_form s2) in
  let s4 := apply_toggle s3 "headsail" "GENOA" in
  s0 = SailState "DOWN" "" "" false
  ∧ s1 = SailState "DOWN" "JIB" "" false
  ∧ s2 = SailState "DOWN" "JIB" "REACHING_SPI" false
  ∧ s3 = SailState "DOWN" "JIB" "REACHING_SPI" true
  ∧ s4 = SailState "DOWN" "GENOA" "" false.
Proof. vm_compute. repeat split. Qed.

Example committed_sanitized :
  get_current_sail_config
    (Some (<["main" := PStr "FULL"]> (<["headsail" := PStr "NONE"]>
          (<["staysail_mode" := PBool false]> ∅))))
  = <["main" := PStr "FULL"]> default_config.
Proof. vm_compute. reflexivity. Qed.

Example summary_all_down :
  format_config_summary display_fixture (pending_dict (SailState "DOWN" "" "" false))
  = Some "All sails down".
Proof. vm_compute. reflexivity. Qed.

Example summary_full_jib :
  format_config_summary display_fixture (pending_dict (SailState "FULL" "JIB" "" false))
  = Some "Main: FULL + Jib".
Proof. vm_compute. reflexivity. Qed.

Example summary_staysail :
  format_config_summary display_fixture
    (pending_dict (SailState "FULL" "JIB" "REACHING_SPI" true))
  = Some "Main: FULL + Jib (S) + Reaching Spi".
Proof. vm_compute. reflexivity. Qed.

Example summary_unmapped :
  format_config_summary display_fixture (pending_dict (SailState "REEF1" "CODE0" "" false))
  = Some "Main: REEF1 + CODE0".
Proof. vm_compute. reflexivity. Qed.

(** * Properties of the toggle *)

(** ** The defining equations of [apply_toggle], one per category *)

Lemma apply_toggle_main cur value :
  apply_toggle cur "main" value
  = {| main := if decide (value ≠ main cur) then value else "DOWN";
       headsail := headsail cur; downwind := downwind cur;
       staysail_mode := staysail_mode cur |}.
Proof. reflexivity. Qed.

Lemma apply_toggle_headsail cur value :
  apply_toggle cur "headsail" value
  = let new_headsail := if decide (value = headsail cur) then "" else value in
    if decide (new_headsail = "") then
      SailState (main cur) new_headsail (downwind cur) false
    else if decide (new_headsail = "JIB" ∧ downwind cur = "REACHING_SPI") then
      SailState (main cur) new_headsail (downwind cur) (staysail_mode cur)
    else SailState (main cur) new_headsail "" false.
Proof. reflexivity. Qed.

Lemma apply_toggle_downwind cur value :
  apply_toggle cur "downwind" value
  = let new_downwind := if decide (value = downwind cur) then "" else value in
    if decide (new_downwind = "") then
      SailState (main cur) (headsail cur) new_downwind false
    else if decide (new_downwind = "REACHING_SPI" ∧ headsail cur = "JIB") then
      SailState (main cur) (headsail cur) new_downwind (staysail_mode cur)
    else SailState (main cur) "" new_downwind false.
Proof. reflexivity. Qed.

Lemma apply_toggle_other cur category value :
  category ≠ "main" → category ≠ "headsail" → category ≠ "downwind" →
  apply_toggle cur category value = cur.
Proof.
  intros Hm Hh Hd. unfold apply_toggle.
  rewrite !decide_False by done. by destruct cur.
Qed.

(** Splits on every comparison a toggle makes and lets the equalities flow. *)
Ltac toggle_split :=
  repeat (case_decide; simplify_eq/=); try done; try (intuition congruence).

(** C1: a [headsail] toggle keeps [main]; it deselects the headsail when
    [value] is the current one and selects [value] otherwise; an empty new
    headsail keeps [downwind] and clears the staysail flag; the new headsail
    JIB over a current downwind REACHING_SPI keeps [downwind] and the
    staysail flag; any other headsail clears both. *)
Theorem toggle_headsail_spec (pending : sail_state) (value : string) :
  let r := apply_toggle pending "headsail" value in
  main r = main pending
  ∧ (value = headsail pending → headsail r = "")
  ∧ (value ≠ headsail pending → headsail r = value)
  ∧ (headsail r = "" →
       downwind r = downwind pending ∧ staysail_mode r = false)
  ∧ (headsail r ≠ "" → headsail r = "JIB" ∧ downwind pending = "REACHING_SPI" →
       downwind r = downwind pending ∧ staysail_mode r = staysail_mode pending)
  ∧ (headsail r ≠ "" → ¬ (headsail r = "JIB" ∧ downwind pending = "REACHING_SPI") →
       downwind r = "" ∧ staysail_mode r = false).
Proof.
  intros r; subst r. rewrite apply_toggle_headsail.
  destruct pending as [m h d s]; simpl. toggle_split.
Qed.

Lemma toggle_headsail_spec_witness :
  (let r := apply_toggle (SailState "FULL" "GENOA" "" false) "headsail" "GENOA" in
   headsail r = "" ∧ downwind r = "" ∧ staysail_mode r = false)
  ∧ (let r := apply_toggle (SailState "FULL" "" "REACHING_SPI" true) "headsail" "JIB" in
     headsail r = "JIB" ∧ downwind r = "REACHING_SPI" ∧ staysail_mode r = true)
  ∧ (let r := apply_toggle (SailState "FULL" "JIB" "REACHING_SPI" true) "headsail" "GENOA" in
     headsail r = "GENOA" ∧ downwind r = "" ∧ staysail_mode r = false).
Proof.
  assert ("JIB" ≠ "") as Hjib by discriminate.
  assert ("GENOA" ≠ "") as Hgen by discriminate.
  assert ("GENOA" ≠ "JIB") as Hgj by discriminate.
  split; [|split].
  - destruct (toggle_headsail_spec (SailState "FULL" "GENOA" "" false) "GENOA")
      as (_ & Hsel & _ & Hempty & _).
    pose proof (Hsel eq_refl) as H1. destruct (Hempty H1) as [H2 H3].
    exact (conj H1 (conj H2 H3)).
  - destruct (toggle_headsail_spec (SailState "FULL" "" "REACHING_SPI" true) "JIB")
      as (_ & _ & Hsel & _ & Hpair & _).
    pose proof (Hsel Hjib) as H1.
    destruct (Hpair Hjib (conj H1 eq_refl)) as [H2 H3].
    exact (conj H1 (conj H2 H3)).
  - destruct (toggle_headsail_spec (SailState "FULL" "JIB" "REACHING_SPI" true) "GENOA")
      as (_ & _ & Hsel & _ & _ & Hclear).
    pose proof (Hsel Hgj) as H1.
    destruct (Hclear Hgen (λ H, Hgj (proj1 H))) as [H2 H3].
    exact (conj H1 (conj H2 H3)).
Defined.

(** C2: a [downwind] toggle mirrors the headsail one with the roles of the
    two fields swapped; the pair that may stay together is the new downwind
    REACHING_SPI over a current headsail JIB. *)
Theorem toggle_downwind_spec (pending : sail_state) (value : string) :
  let r := apply_toggle pending "downwind" value in
  main r = main pending
  ∧ (value = downwind pending → downwind r = "")
  ∧ (value ≠ downwind pending → downwind r = value)
  ∧ (downwind r = "" →
       headsail r = headsail pending ∧ staysail_mode r = false)
  ∧ (downwind r ≠ "" → downwind r = "REACHING_SPI" ∧ headsail pending = "JIB" →
       headsail r = headsail pending ∧ staysail_mode r = staysail_mode pending)
  ∧ (downwind r ≠ "" → ¬ (downwind r = "REACHING_SPI" ∧ headsail pending = "JIB") →
       headsail r = "" ∧ staysail_mode r = false).
Proof.
  intros r; subst r. rewrite apply_toggle_downwind.
  destruct pending as [m h d s]; simpl. toggle_split.
Qed.

Lemma toggle_downwind_spec_witness :
  (let r := apply_toggle (SailState "FULL" "" "SPINNAKER" false) "downwind" "SPINNAKER" in
   downwind r = "" ∧ headsail r = "" ∧ staysail_mode r = false)
  ∧ (let r := apply_toggle (SailState "FULL" "JIB" "" true) "downwind" "REACHING_SPI" in
     downwind r = "REACHING_SPI" ∧ headsail r = "JIB" ∧ staysail_mode r = true)
  ∧ (let r := apply_toggle (SailState "FULL" "JIB" "REACHING_SPI" true) "downwind" "SPINNAKER" in
     downwind r = "SPINNAKER" ∧ headsail r = "" ∧ staysail_mode r = false).
Proof.
  assert ("REACHING_SPI" ≠ "") as Hrs by discriminate.
  assert ("SPINNAKER" ≠ "") as Hsp by discriminate.
  assert ("SPINNAKER" ≠ "REACHING_SPI") as Hsr by discriminate.
  split; [|split].
  - destruct (toggle_downwind_spec (SailState "FULL" "" "SPINNAKER" false) "SPINNAKER")
      as (_ & Hsel & _ & Hempty & _).
    pose proof (Hsel eq_refl) as H1. destruct (Hempty H1) as [H2 H3].
    exact (conj H1 (conj H2 H3)).
  - destruct (toggle_downwind_spec (SailState "FULL" "JIB" "" true) "REACHING_SPI")
      as (_ & _ & Hsel & _ & Hpair & _).
    pose proof (Hsel Hrs) as H1.
    destruct (Hpair Hrs (conj H1 eq_refl)) as [H2 H3].
    exact (conj H1 (conj H2 H3)).
  - destruct (toggle_downwind_spec (SailState "FULL" "JIB" "REACHING_SPI" true) "SPINNAKER")
      as (_ & _ & Hsel & _ & _ & Hclear).
    pose proof (Hsel Hsr) as H1.
    destruct (Hclear Hsp (λ H, Hsr (proj1 H))) as [H2 H3].
    exact (conj H1 (conj H2 H3)).
Defined.

(** C6: a [main] toggle sets [main] to the sentinel DOWN when [value] is the
    current main and to [value] otherwise; headsail, downwind and the
    staysail flag pass through. *)
Theorem toggle_main_spec (pending : sail_state) (value : string) :
  let r := apply_toggle pending "main" value in
  (value = main pending → main r = "DOWN")
  ∧ (value ≠ main pending → main r = value)
  ∧ headsail r = headsail pending
  ∧ downwind r = downwind pending
  ∧ staysail_mode r = staysail_mode pending.
Proof.
  intros r; subst r. rewrite apply_toggle_main.
  destruct pending as [m h d s]; simpl. toggle_split.
Qed.

Lemma toggle_main_spec_witness :
  main (apply_toggle (SailState "FULL" "JIB" "" false) "main" "FULL") = "DOWN"
  ∧ main (apply_toggle (SailState "FULL" "JIB" "" false) "main" "REEF1") = "REEF1".
Proof.
  split.
  - destruct (toggle_main_spec (SailState "FULL" "JIB" "" false) "FULL") as (H & _).
    exact (H eq_refl).
  - destruct (toggle_main_spec (SailState "FULL" "JIB" "" false) "REEF1") as (_ & H & _).
    apply H. discriminate.
Defined.

(** C4: when a [headsail] or [downwind] toggle does not land on the pair
    (JIB, REACHING_SPI), the result never has both a headsail and a downwind
    sail. *)
Theorem exclusive_unless_allowed_pair (pending : sail_state) (category value : string) :
  category = "headsail" ∨ category = "downwind" →
  let r := apply_toggle pending category value in
  ¬ (headsail r = "JIB" ∧ downwind r = "REACHING_SPI") →
  ¬ (headsail r ≠ "" ∧ downwind r ≠ "").
Proof.
  intros [-> | ->] r; subst r;
    [rewrite apply_toggle_headsail | rewrite apply_toggle_downwind];
    destruct pending as [m h d s]; simpl; toggle_split.
Qed.

Lemma exclusive_unless_allowed_pair_witness :
  let r := apply_toggle (SailState "FULL" "" "SPINNAKER" false) "headsail" "GENOA" in
  ¬ (headsail r = "JIB" ∧ downwind r = "REACHING_SPI")
  ∧ ¬ (headsail r ≠ "" ∧ downwind r ≠ "").
Proof.
  assert (¬ (headsail (apply_toggle (SailState "FULL" "" "SPINNAKER" false) "headsail" "GENOA") = "JIB"
             ∧ downwind (apply_toggle (SailState "FULL" "" "SPINNAKER" false) "headsail" "GENOA")
               = "REACHING_SPI")) as Hpair
    by (simpl; intros [? _]; discriminate).
  split; [exact Hpair|].
  exact (exclusive_unless_allowed_pair (SailState "FULL" "" "SPINNAKER" false)
           "headsail" "GENOA" (or_introl eq_refl) Hpair).
Defined.

(** ** The staysail flag and the allowed pair *)

(** Every selection is the reading of some form, so a statement over all
    selections is a statement over all requests. *)
Lemma current_selection_pending_form (st : sail_state) :
  current_selection (pending_form st) = st.
Proof. destruct st as [m h d [|]]; reflexivity. Qed.

(** The staysail handler reads the same three sails and negates the flag. *)
Lemma flip_staysail_selection (form : gmap string string) :
  flip_staysail form
  = {| main := main (current_selection form);
       headsail := headsail (current_selection form);
       downwind := downwind (current_selection form);
       staysail_mode := negb (staysail_mode (current_selection form)) |}.
Proof.
  unfold flip_staysail, current_selection; simpl. f_equal.
  by repeat case_bool_decide.
Qed.

(** C3, as the claim states it, fails: the staysail handler on an empty form
    (all defaults, no sail set) raises the flag, and a [main] toggle passes a
    raised flag through whatever the sails are. *)
Lemma staysail_without_pair_counterexample :
  ¬ staysail_only_with_pair (flip_staysail ∅)
  ∧ flip_staysail ∅ = SailState "DOWN" "" "" true
  ∧ ¬ staysail_only_with_pair (apply_toggle (SailState "DOWN" "" "" true) "main" "FULL").
Proof.
  split; [|split].
  - intros H. destruct (H eq_refl) as [Hh _]. discriminate Hh.
  - reflexivity.
  - intros H. destruct (H eq_refl) as [Hh _]. discriminate Hh.
Qed.

(** C3, amended: after a [headsail] or [downwind] toggle the staysail flag is
    set only over the pair (JIB, REACHING_SPI); a toggle of any other category
    keeps the property when the input has it; the staysail handler flips the
    flag without looking at the sails, so its result has the property exactly
    when the flag was set before or the input is the allowed pair. *)
Theorem staysail_only_after_sail_toggle :
  (∀ pending category value,
     category = "headsail" ∨ category = "downwind" →
     staysail_only_with_pair (apply_toggle pending category value))
  ∧ (∀ pending category value,
       category ≠ "headsail" → category ≠ "downwind" →
       staysail_only_with_pair pending →
       staysail_only_with_pair (apply_toggle pending category value))
  ∧ (∀ form : gmap string string,
       staysail_only_with_pair (flip_staysail form)
       ↔ staysail_mode (current_selection form) = true
         ∨ allowed_pair (current_selection form)).
Proof.
  unfold staysail_only_with_pair, allowed_pair. split; [|split].
  - intros [m h d s] category value [-> | ->];
      [rewrite apply_toggle_headsail | rewrite apply_toggle_downwind];
      simpl; toggle_split.
  - intros [m h d s] category value Hh Hd Hin.
    destruct (decide (category = "main")) as [-> | Hm].
    + rewrite apply_toggle_main. exact Hin.
    + by rewrite apply_toggle_other.
  - intros form. rewrite flip_staysail_selection; simpl.
    destruct (bool_decide (form_get form "pending_staysail" "false" = "true")); simpl.
    + split; [intros _; by left | intros _ Hf; discriminate Hf].
    + split; [intros H; right; exact (H eq_refl) | intros [Hs | Hp] _; [discriminate | exact Hp]].
Qed.

Lemma staysail_only_after_sail_toggle_witness :
  staysail_only_with_pair
    (apply_toggle (SailState "FULL" "JIB" "REACHING_SPI" true) "headsail" "GENOA")
  ∧ staysail_only_with_pair
      (apply_toggle (SailState "FULL" "JIB" "REACHING_SPI" true) "main" "REEF1")
  ∧ staysail_only_with_pair
      (flip_staysail (<["pending_headsail" := "JIB"]>
                      (<["pending_downwind" := "REACHING_SPI"]> ∅))).
Proof.
  destruct staysail_only_after_sail_toggle as (Hsail & Hother & Hflip).
  split; [|split].
  - apply Hsail. left; reflexivity.
  - apply Hother; [discriminate | discriminate |].
    intros _. split; reflexivity.
  - apply Hflip. right. split; reflexivity.
Defined.

(** ** Toggling twice *)

(** C5, as the claim states it, fails for [main] (switching from one main
    state to another and tapping again ends on DOWN) and on the branches that
    keep the other sail (deselecting and reselecting JIB over REACHING_SPI
    loses the staysail flag). *)
Lemma toggle_twice_counterexample :
  toggle_twice (SailState "FULL" "" "" false) "main" "REEF1"
    = SailState "DOWN" "" "" false
  ∧ toggle_twice (SailState "FULL" "" "" false) "main" "REEF1"
    ≠ SailState "FULL" "" "" false
  ∧ toggle_twice (SailState "DOWN" "JIB" "REACHING_SPI" true) "headsail" "JIB"
    = SailState "DOWN" "JIB" "REACHING_SPI" false
  ∧ toggle_twice (SailState "DOWN" "JIB" "REACHING_SPI" true) "headsail" "JIB"
    ≠ SailState "DOWN" "JIB" "REACHING_SPI" true.
Proof. repeat split; (reflexivity || discriminate). Qed.

(** C5, amended: toggling twice with the same category and value gives the
    selection back exactly when, for [main], the value is the current main or
    the current main is DOWN; for [headsail] (and [downwind] likewise, roles
    swapped), the staysail flag is off, the field is empty or already equal
    to the value, and the toggle clears nothing: the value is empty, or the
    other field is empty, or the two form the allowed pair. *)
Theorem toggle_twice_returns_iff (st : sail_state) (value : string) :
  (toggle_twice st "main" value = st
     ↔ value = main st ∨ main st = "DOWN")
  ∧ (toggle_twice st "headsail" value = st
       ↔ staysail_mode st = false
         ∧ (headsail st = "" ∨ headsail st = value)
         ∧ (value = "" ∨ downwind st = ""
            ∨ (value = "JIB" ∧ downwind st = "REACHING_SPI")))
  ∧ (toggle_twice st "downwind" value = st
       ↔ staysail_mode st = false
         ∧ (downwind st = "" ∨ downwind st = value)
         ∧ (value = "" ∨ headsail st = ""
            ∨ (value = "REACHING_SPI" ∧ headsail st = "JIB"))).
Proof.
  unfold toggle_twice. destruct st as [m h d s]. split; [|split].
  - rewrite !apply_toggle_main; simpl. toggle_split.
  - rewrite !apply_toggle_headsail; simpl.
    repeat (case_decide; simplify_eq/=);
      (split; [intros Hback; inversion Hback; subst | intros (-> & Hfield & Hkeep)]);
      try done; try (intuition congruence).
  - rewrite !apply_toggle_downwind; simpl.
    repeat (case_decide; simplify_eq/=);
      (split; [intros Hback; inversion Hback; subst | intros (-> & Hfield & Hkeep)]);
      try done; try (intuition congruence).
Qed.

Lemma toggle_twice_returns_iff_witness :
  toggle_twice (SailState "DOWN" "" "REACHING_SPI" false) "headsail" "JIB"
    = SailState "DOWN" "" "REACHING_SPI" false
  ∧ toggle_twice (SailState "FULL" "" "" false) "main" "FULL"
    = SailState "FULL" "" "" false.
Proof.
  split.
  - destruct (toggle_twice_returns_iff (SailState "DOWN" "" "REACHING_SPI" false) "JIB")
      as (_ & Hhead & _).
    apply Hhead; simpl. split; [reflexivity|]. split; [by left|].
    right; right. split; reflexivity.
  - destruct (toggle_twice_returns_iff (SailState "FULL" "" "" false) "FULL")
      as (Hmain & _).
    apply Hmain; simpl. by left.
Defined.

(** * Pending against committed *)

Lemma elem_of_sail_fields (k : string) :
  k ∈ sail_fields
  ↔ k = "main" ∨ k = "headsail" ∨ k = "downwind" ∨ k = "staysail_mode".
Proof.
  unfold sail_fields. rewrite !elem_of_cons, elem_of_nil. tauto.
Qed.

Lemma pending_dict_is_configuration (st : sail_state) :
  is_configuration (pending_dict st).
Proof.
  intros k [-> | [-> | [-> | ->]]]%elem_of_sail_fields; eexists; reflexivity.
Qed.

Lemma get_current_sail_config_is_configuration latest :
  is_configuration (get_current_sail_config latest).
Proof.
  intros k [-> | [-> | [-> | ->]]]%elem_of_sail_fields;
    destruct latest; eexists; reflexivity.
Qed.

(** With the four fields present the chain of [or] is the disjunction of
    the four comparisons. *)
Lemma has_changes_eval (p c : gmap string pyval) pm ph pd ps cm ch cd cs :
  p !! "main" = Some pm → p !! "headsail" = Some ph →
  p !! "downwind" = Some pd → p !! "staysail_mode" = Some ps →
  c !! "main" = Some cm → c !! "headsail" = Some ch →
  c !! "downwind" = Some cd → c !! "staysail_mode" = Some cs →
  has_changes p c
  = Some (py_ne pm cm || py_ne ph ch || py_ne pd cd || py_ne ps cs).
Proof.
  intros Hpm Hph Hpd Hps Hcm Hch Hcd Hcs.
  unfold has_changes, field_differs, dict_item.
  rewrite Hpm, Hph, Hpd, Hps, Hcm, Hch, Hcd, Hcs; simpl.
  destruct (py_ne pm cm), (py_ne ph ch), (py_ne pd cd); reflexivity.
Qed.

Lemma has_changes_total (p c : gmap string pyval) :
  is_configuration p → is_configuration c → is_Some (has_changes p c).
Proof.
  intros Hp Hc.
  destruct (Hp "main") as [pm Hpm]; [apply elem_of_sail_fields; tauto|].
  destruct (Hp "headsail") as [ph Hph]; [apply elem_of_sail_fields; tauto|].
  destruct (Hp "downwind") as [pd Hpd]; [apply elem_of_sail_fields; tauto|].
  destruct (Hp "staysail_mode") as [ps Hps]; [apply elem_of_sail_fields; tauto|].
  destruct (Hc "main") as [cm Hcm]; [apply elem_of_sail_fields; tauto|].
  destruct (Hc "headsail") as [ch Hch]; [apply elem_of_sail_fields; tauto|].
  destruct (Hc "downwind") as [cd Hcd]; [apply elem_of_sail_fields; tauto|].
  destruct (Hc "staysail_mode") as [cs Hcs]; [apply elem_of_sail_fields; tauto|].
  rewrite (has_changes_eval p c pm ph pd ps cm ch cd cs) by done. by eexists.
Qed.

Lemma has_changes_true_iff (p c : gmap string pyval) :
  is_configuration p → is_configuration c →
  has_changes p c = Some true ↔ ∃ k, k ∈ sail_fields ∧ p !! k ≠ c !! k.
Proof.
  intros Hp Hc.
  destruct (Hp "main") as [pm Hpm]; [apply elem_of_sail_fields; tauto|].
  destruct (Hp "headsail") as [ph Hph]; [apply elem_of_sail_fields; tauto|].
  destruct (Hp "downwind") as [pd Hpd]; [apply elem_of_sail_fields; tauto|].
  destruct (Hp "staysail_mode") as [ps Hps]; [apply elem_of_sail_fields; tauto|].
  destruct (Hc "main") as [cm Hcm]; [apply elem_of_sail_fields; tauto|].
  destruct (Hc "headsail") as [ch Hch]; [apply elem_of_sail_fields; tauto|].
  destruct (Hc "downwind") as [cd Hcd]; [apply elem_of_sail_fields; tauto|].
  destruct (Hc "staysail_mode") as [cs Hcs]; [apply elem_of_sail_fields; tauto|].
  rewrite (has_changes_eval p c pm ph pd ps cm ch cd cs) by done.
  unfold py_ne. split.
  - intros [= H]. repeat (apply orb_true_iff in H as [H | H]);
      apply bool_decide_eq_true in H.
    + exists "main". rewrite elem_of_sail_fields, Hpm, Hcm. split; [tauto | congruence].
    + exists "headsail". rewrite elem_of_sail_fields, Hph, Hch. split; [tauto | congruence].
    + exists "downwind". rewrite elem_of_sail_fields, Hpd, Hcd. split; [tauto | congruence].
    + exists "staysail_mode". rewrite elem_of_sail_fields, Hps, Hcs. split; [tauto | congruence].
  - intros (k & [-> | [-> | [-> | ->]]]%elem_of_sail_fields & Hne); f_equal;
      rewrite !orb_true_iff, !bool_decide_eq_true.
    + left; left; left. congruence.
    + left; left; right. congruence.
    + left; right. congruence.
    + right. congruence.
Qed.

Lemma has_changes_insert_other (p c : gmap string pyval) (k : string) (v w : pyval) :
  k ∉ sail_fields →
  has_changes (<[k := v]> p) (<[k := w]> c) = has_changes p c.
Proof.
  rewrite elem_of_sail_fields. intros Hk.
  unfold has_changes, field_differs, dict_item.
  rewrite !lookup_insert_ne by (intros ->; tauto). reflexivity.
Qed.

(** C7: on configurations the comparison yields a result, and that result is
    true exactly when one of main, headsail, downwind, staysail_mode differs;
    a configuration never differs from itself, and values under any other
    key (a comment, a timestamp) have no influence. *)
Theorem has_changes_iff_field_differs (pending committed : gmap string pyval) :
  is_configuration pending → is_configuration committed →
  is_Some (has_changes pending committed)
  ∧ (has_changes pending committed = Some true
     ↔ ∃ k, k ∈ sail_fields ∧ pending !! k ≠ committed !! k)
  ∧ has_changes pending pending = Some false
  ∧ (∀ k v w, k ∉ sail_fields →
       has_changes (<[k := v]> pending) (<[k := w]> pending) = Some false).
Proof.
  intros Hp Hc.
  assert (has_changes pending pending = Some false) as Hrefl.
  { destruct (has_changes_total pending pending Hp Hp) as [[|] Hb]; [|done].
    apply has_changes_true_iff in Hb as (k & _ & Hne); done. }
  split; [by apply has_changes_total|].
  split; [by apply has_changes_true_iff|].
  split; [done|].
  intros k v w Hk. by rewrite has_changes_insert_other.
Qed.

Lemma has_changes_iff_field_differs_witness :
  is_configuration (pending_dict (SailState "FULL" "JIB" "" false))
  ∧ is_configuration default_config
  ∧ has_changes (pending_dict (SailState "FULL" "JIB" "" false)) default_config
    = Some true
  ∧ has_changes (pending_dict (SailState "FULL" "JIB" "" false))
      (pending_dict (SailState "FULL" "JIB" "" false)) = Some false.
Proof.
  assert (is_configuration (pending_dict (SailState "FULL" "JIB" "" false))) as Hp.
  { intros k [-> | [-> | [-> | ->]]]%elem_of_sail_fields; eexists; reflexivity. }
  assert (is_configuration default_config) as Hc.
  { intros k [-> | [-> | [-> | ->]]]%elem_of_sail_fields; eexists; reflexivity. }
  destruct (has_changes_iff_field_differs _ _ Hp Hc) as (_ & Hiff & Hrefl & _).
  split; [exact Hp|]. split; [exact Hc|]. split; [|exact Hrefl].
  apply Hiff. exists "main". split.
  - apply elem_of_sail_fields. by left.
  - discriminate.
Defined.

(** * The summary line *)

Section summary_properties.

Variable SAIL_DISPLAY : gmap string string.

Lemma py_or_text (v : pyval) (dflt : string) :
  is_text v →
  py_or v (PStr dflt) = PStr (if bool_decide (text_of v = "") then dflt else text_of v).
Proof.
  destruct v as [| b | s]; simpl; [done | done |]. intros _. unfold py_or; simpl.
  by repeat case_bool_decide.
Qed.

Lemma is_selected_str (s : string) :
  is_selected (PStr s) = negb (reads_unset s).
Proof.
  unfold is_selected, reads_unset, py_ne; simpl.
  repeat case_bool_decide; simplify_eq/=; try done; intuition congruence.
Qed.

Lemma or_empty_id (s : string) :
  (if bool_decide (s = "") then "" else s) = s.
Proof. by case_bool_decide. Qed.

Lemma selected_truthy (v : pyval) : is_selected v = true → truthy v = true.
Proof. unfold is_selected. by intros [? _]%andb_true_iff. Qed.

(** The main stage (lines 263-268): the test [main in ("DOWN", "None")] after
    [or "DOWN"] is [reads_down], and a main that is not down is untouched. *)
Lemma main_stage (m : string) :
  let m0 := if bool_decide (m = "") then "DOWN" else m in
  bool_decide (PStr m0 = PStr "DOWN" ∨ PStr m0 = PStr "None") = reads_down m
  ∧ (reads_down m = false → m0 = m)
  ∧ (reads_down m = false → bool_decide (PStr m = PStr "DOWN") = false).
Proof.
  unfold reads_down; simpl.
  repeat case_bool_decide; simplify_eq/=; try done; try (intuition congruence).
Qed.

(** On text fields the formatter never fails, and its result is the summary
    under the code's own reading of down and unset. *)
Lemma format_config_summary_text (config : gmap string pyval) :
  text_fields config →
  format_config_summary SAIL_DISPLAY config
  = Some (summary_of SAIL_DISPLAY reads_down reads_unset
            (text_of (dict_get config "main"))
            (text_of (dict_get config "headsail"))
            (text_of (dict_get config "downwind"))
            (truthy (dict_get config "staysail_mode"))).
Proof.
  intros (Hm & Hh & Hd). unfold format_config_summary.
  rewrite !py_or_text, !or_empty_id by done.
  generalize (text_of (dict_get config "main")) as m.
  generalize (text_of (dict_get config "headsail")) as h.
  generalize (text_of (dict_get config "downwind")) as d.
  generalize (truthy (dict_get config "staysail_mode")) as s.
  clear. intros s d h m.
  destruct (main_stage m) as (Hdown & Hkeep & Hup); simpl in Hdown, Hkeep.
  rewrite Hdown. unfold summary_of.
  rewrite <- (negb_involutive (reads_unset h)), <- (negb_involutive (reads_unset d)).
  rewrite <- !is_selected_str.
  destruct (reads_down m) eqn:Hm;
    destruct (is_selected (PStr h)) eqn:Hh, (is_selected (PStr d)) eqn:Hd;
    try (pose proof (selected_truthy _ Hh) as Hth; simpl in Hth);
    try (pose proof (selected_truthy _ Hd) as Htd; simpl in Htd);
    try rewrite (Hkeep eq_refl);
    try rewrite (Hup eq_refl);
    destruct s; simpl; rewrite ?Hth, ?Htd; simpl; reflexivity.
Qed.

Lemma summary_of_ext (is_down is_down' is_unset is_unset' : string → bool)
    (m h d : string) (staysail : bool) :
  is_down m = is_down' m → is_unset h = is_unset' h → is_unset d = is_unset' d →
  summary_of SAIL_DISPLAY is_down is_unset m h d staysail
  = summary_of SAIL_DISPLAY is_down' is_unset' m h d staysail.
Proof. unfold summary_of. by intros -> -> ->. Qed.

Lemma pending_dict_text_fields (st : sail_state) : text_fields (pending_dict st).
Proof. by repeat split. Qed.

(** The summary of a pending selection always exists. *)
Lemma format_config_summary_pending (st : sail_state) :
  format_config_summary SAIL_DISPLAY (pending_dict st)
  = Some (summary_of SAIL_DISPLAY reads_down reads_unset
            (main st) (headsail st) (downwind st) (staysail_mode st)).
Proof.
  rewrite format_config_summary_text by apply pending_dict_text_fields.
  reflexivity.
Qed.

(** Both handlers hand a complete context to the template: neither the
    comparison nor the summary can raise. *)
Lemma render_pending_total (st : sail_state) latest :
  is_Some (render SAIL_DISPLAY (pending_dict st) (get_current_sail_config latest)).
Proof.
  unfold render.
  destruct (has_changes_total (pending_dict st) (get_current_sail_config latest))
    as [changed ->].
  - apply pending_dict_is_configuration.
  - apply get_current_sail_config_is_configuration.
  - rewrite format_config_summary_pending. by eexists.
Qed.

End summary_properties.

(** C8, as the claim states it (down is the sentinel, unset is the empty
    string), fails: a headsail that is the string None is left out, so a
    selection of main DOWN and headsail None reads All sails down where the
    claim joins two parts; and a main that is the string None over no sails
    reads All sails down where the claim gives a Main part. *)
Lemma summary_claimed_counterexample :
  format_config_summary display_fixture (pending_dict (SailState "DOWN" "None" "" false))
    = Some "All sails down"
  ∧ summary_of display_fixture is_sentinel is_empty "DOWN" "None" "" false
    = "Main: DOWN + None"
  ∧ format_config_summary display_fixture (pending_dict (SailState "None" "" "" false))
    = Some "All sails down"
  ∧ summary_of display_fixture is_sentinel is_empty "None" "" "" false
    = "Main: None"
  ∧ ¬ (∀ st : sail_state,
         format_config_summary display_fixture (pending_dict st)
         = Some (summary_of display_fixture is_sentinel is_empty
                   (main st) (headsail st) (downwind st) (staysail_mode st))).
Proof.
  split; [vm_compute; reflexivity|]. split; [vm_compute; reflexivity|].
  split; [vm_compute; reflexivity|]. split; [vm_compute; reflexivity|].
  intros H. specialize (H (SailState "DOWN" "None" "" false)).
  vm_compute in H. discriminate H.
Qed.

(** C8, amended: on every configuration whose main, headsail and downwind
    hold a string or nothing, the formatter returns All sails down when main
    is DOWN, empty, missing or the string None and headsail and downwind are
    each empty, missing or the string None; otherwise it joins with " + " the
    part Main: DOWN (main down in that sense) or Main: main, the display name
    of the headsail (the identifier itself when the table has no entry) with
    " (S)" exactly when the staysail flag is truthy, and the display name of
    the downwind sail, leaving out a sail that is unset in that sense.  When
    main is not empty and no field is the string None this is the summary of
    the claim. *)
Theorem format_config_summary_spec
    (SAIL_DISPLAY : gmap string string) (config : gmap string pyval) :
  text_fields config →
  let m := text_of (dict_get config "main") in
  let h := text_of (dict_get config "headsail") in
  let d := text_of (dict_get config "downwind") in
  let s := truthy (dict_get config "staysail_mode") in
  format_config_summary SAIL_DISPLAY config
    = Some (summary_of SAIL_DISPLAY reads_down reads_unset m h d s)
  ∧ (m ≠ "" → m ≠ "None" → h ≠ "None" → d ≠ "None" →
     format_config_summary SAIL_DISPLAY config
       = Some (summary_of SAIL_DISPLAY is_sentinel is_empty m h d s)).
Proof.
  intros Htext m h d s. split.
  - by apply format_config_summary_text.
  - intros Hm Hm' Hh Hd. rewrite format_config_summary_text by done.
    f_equal. apply summary_of_ext;
      unfold reads_down, reads_unset, is_sentinel, is_empty;
      apply bool_decide_ext; intuition congruence.
Qed.

Lemma format_config_summary_spec_witness :
  text_fields (pending_dict (SailState "FULL" "JIB" "REACHING_SPI" true))
  ∧ format_config_summary display_fixture
      (pending_dict (SailState "FULL" "JIB" "REACHING_SPI" true))
    = Some "Main: FULL + Jib (S) + Reaching Spi".
Proof.
  assert (text_fields (pending_dict (SailState "FULL" "JIB" "REACHING_SPI" true)))
    as Htext by (repeat split).
  split; [exact Htext|].
  destruct (format_config_summary_spec display_fixture _ Htext) as [_ Hclaim].
  rewrite Hclaim by discriminate. vm_compute. reflexivity.
Defined.

(** ** The string None *)

(** On text fields, a sail that reads as unset leaves the summary as if the
    field held the empty string. *)
Lemma summary_of_unset_headsail (SAIL_DISPLAY : gmap string string)
    (m h d : string) (staysail : bool) :
  reads_unset h = true →
  summary_of SAIL_DISPLAY reads_down reads_unset m h d staysail
  = if reads_down m && reads_unset d then "All sails down"
    else join " + "
           ([if reads_down m then "Main: DOWN" else "Main: " +:+ m]
            ++ (if reads_unset d then [] else [default d (SAIL_DISPLAY !! d)]))%list.
Proof. intros Hh. unfold summary_of. rewrite Hh, andb_true_r. reflexivity. Qed.

Lemma summary_of_unset_downwind (SAIL_DISPLAY : gmap string string)
    (m h d : string) (staysail : bool) :
  reads_unset d = true →
  summary_of SAIL_DISPLAY reads_down reads_unset m h d staysail
  = if reads_down m && reads_unset h then "All sails down"
    else join " + "
           ([if reads_down m then "Main: DOWN" else "Main: " +:+ m]
            ++ (if reads_unset h then []
                else [if staysail then default h (SAIL_DISPLAY !! h) +:+ " (S)"
                      else default h (SAIL_DISPLAY !! h)]))%list.
Proof.
  intros Hd. unfold summary_of. rewrite Hd, andb_true_r.
  destruct (reads_unset h); reflexivity.
Qed.

(** C10: the formatter reads the string None as absence.  On every
    configuration, a main of None gives the summary of a main of DOWN, and a
    headsail or downwind of None gives the summary of the configuration
    without that field; a configuration whose three sails are all None reads
    All sails down.  On a configuration whose sails hold a string or
    nothing, the summary is given in full: with a main of None it is All
    sails down when headsail and downwind are unset (empty, missing or
    None), and otherwise the part Main: DOWN joined with the sails that are
    set; with a headsail of None it is the summary of main and downwind
    alone, with a downwind of None that of main and headsail alone, and it is
    All sails down when these are down and unset. *)
Theorem none_reads_as_absent
    (SAIL_DISPLAY : gmap string string) (config : gmap string pyval) :
  format_config_summary SAIL_DISPLAY (<["main" := PStr "None"]> config)
    = format_config_summary SAIL_DISPLAY (<["main" := PStr "DOWN"]> config)
  ∧ format_config_summary SAIL_DISPLAY (<["headsail" := PStr "None"]> config)
    = format_config_summary SAIL_DISPLAY (delete "headsail" config)
  ∧ format_config_summary SAIL_DISPLAY (<["downwind" := PStr "None"]> config)
    = format_config_summary SAIL_DISPLAY (delete "downwind" config)
  ∧ (dict_get config "main" = PStr "None" →
     dict_get config "headsail" = PStr "None" →
     dict_get config "downwind" = PStr "None" →
     format_config_summary SAIL_DISPLAY config = Some "All sails down")
  ∧ (text_fields config →
     let m := text_of (dict_get config "main") in
     let h := text_of (dict_get config "headsail") in
     let d := text_of (dict_get config "downwind") in
     let s := truthy (dict_get config "staysail_mode") in
     (dict_get config "main" = PStr "None" →
      format_config_summary SAIL_DISPLAY config
      = Some (if reads_unset h && reads_unset d then "All sails down"
              else join " + "
                     (["Main: DOWN"]
                      ++ (if reads_unset h then []
                          else [if s then default h (SAIL_DISPLAY !! h) +:+ " (S)"
                                else default h (SAIL_DISPLAY !! h)])
                      ++ (if reads_unset d then []
                          else [default d (SAIL_DISPLAY !! d)]))%list))
     ∧ (dict_get config "headsail" = PStr "None" →
        format_config_summary SAIL_DISPLAY config
        = Some (if reads_down m && reads_unset d then "All sails down"
                else join " + "
                       ([if reads_down m then "Main: DOWN" else "Main: " +:+ m]
                        ++ (if reads_unset d then []
                            else [default d (SAIL_DISPLAY !! d)]))%list))
     ∧ (dict_get config "downwind" = PStr "None" →
        format_config_summary SAIL_DISPLAY config
        = Some (if reads_down m && reads_unset h then "All sails down"
                else join " + "
                       ([if reads_down m then "Main: DOWN" else "Main: " +:+ m]
                        ++ (if reads_unset h then []
                            else [if s then default h (SAIL_DISPLAY !! h) +:+ " (S)"
                                  else default h (SAIL_DISPLAY !! h)]))%list))).
Proof.
  split; [|split; [|split; [|split]]].
  - unfold format_config_summary, dict_get.
    rewrite !lookup_insert_eq, !lookup_insert_ne by done. reflexivity.
  - unfold format_config_summary, dict_get.
    rewrite !lookup_insert_eq, !lookup_insert_ne by done.
    rewrite !lookup_delete_eq, !lookup_delete_ne by done. reflexivity.
  - unfold format_config_summary, dict_get.
    rewrite !lookup_insert_eq, !lookup_insert_ne by done.
    rewrite !lookup_delete_eq, !lookup_delete_ne by done. reflexivity.
  - intros Hm Hh Hd. unfold format_config_summary.
    rewrite Hm, Hh, Hd. reflexivity.
  - intros Htext m h d s. subst m h d s.
    rewrite format_config_summary_text by done. split; [|split].
    + intros ->. reflexivity.
    + intros ->. f_equal. by apply summary_of_unset_headsail.
    + intros ->. f_equal. by apply summary_of_unset_downwind.
Qed.

Lemma none_reads_as_absent_witness :
  format_config_summary display_fixture (pending_dict (SailState "None" "None" "None" true))
    = Some "All sails down"
  ∧ format_config_summary display_fixture
      (pending_dict (SailState "None" "" "SPINNAKER" false))
    = Some "Main: DOWN + SPINNAKER"
  ∧ format_config_summary display_fixture
      (pending_dict (SailState "FULL" "None" "REACHING_SPI" true))
    = Some "Main: FULL + Reaching Spi"
  ∧ format_config_summary display_fixture
      (pending_dict (SailState "REEF1" "JIB" "None" true))
    = Some "Main: REEF1 + Jib (S)".
Proof.
  split; [|split; [|split]].
  - destruct (none_reads_as_absent display_fixture
                (pending_dict (SailState "None" "None" "None" true)))
      as (_ & _ & _ & Hall & _).
    apply Hall; reflexivity.
  - destruct (none_reads_as_absent display_fixture
                (pending_dict (SailState "None" "" "SPINNAKER" false)))
      as (_ & _ & _ & _ & Hfull).
    destruct (Hfull (pending_dict_text_fields _)) as (Hmain & _ & _).
    rewrite (Hmain eq_refl). vm_compute. reflexivity.
  - destruct (none_reads_as_absent display_fixture
                (pending_dict (SailState "FULL" "None" "REACHING_SPI" true)))
      as (_ & _ & _ & _ & Hfull).
    destruct (Hfull (pending_dict_text_fields _)) as (_ & Hhead & _).
    rewrite (Hhead eq_refl). vm_compute. reflexivity.
  - destruct (none_reads_as_absent display_fixture
                (pending_dict (SailState "REEF1" "JIB" "None" true)))
      as (_ & _ & _ & _ & Hfull).
    destruct (Hfull (pending_dict_text_fields _)) as (_ & _ & Hdown).
    rewrite (Hdown eq_refl). vm_compute. reflexivity.
Defined.

(** * The handlers never fail *)

Lemma toggle_sail_pending (SAIL_DISPLAY : gmap string string)
    (form : gmap string string) (category value : string) latest :
  ∃ ctx, toggle_sail SAIL_DISPLAY form category value latest = Some ctx
         ∧ ctx_pending ctx
           = pending_dict (apply_toggle (current_selection form) category value)
         ∧ ctx_committed ctx = get_current_sail_config latest.
Proof.
  unfold toggle_sail.
  destruct (render_pending_total SAIL_DISPLAY
              (apply_toggle (current_selection form) category value) latest)
    as [ctx Hctx].
  exists ctx. split; [exact Hctx|].
  unfold render in Hctx.
  destruct (has_changes _ _); simpl in Hctx; [|discriminate].
  destruct (format_config_summary _ _); simpl in Hctx; [|discriminate].
  by injection Hctx as <-.
Qed.

(** C9: a category other than main, headsail and downwind leaves the four
    fields of the pending selection as they are, and no request makes either
    toggle handler fail: each returns a context for the template. *)
Theorem unknown_category_is_noop :
  (∀ (pending : sail_state) (category value : string),
     category ≠ "main" → category ≠ "headsail" → category ≠ "downwind" →
     let r := apply_toggle pending category value in
     main r = main pending ∧ headsail r = headsail pending
     ∧ downwind r = downwind pending ∧ staysail_mode r = staysail_mode pending)
  ∧ (∀ (SAIL_DISPLAY : gmap string string) (form : gmap string string)
       (category value : string) (latest : option (gmap string pyval)),
       is_Some (toggle_sail SAIL_DISPLAY form category value latest))
  ∧ (∀ (SAIL_DISPLAY : gmap string string) (form : gmap string string)
       (latest : option (gmap string pyval)),
       is_Some (toggle_staysail SAIL_DISPLAY form latest)).
Proof.
  split; [|split].
  - intros pending category value Hm Hh Hd r; subst r.
    by rewrite apply_toggle_other.
  - intros D form category value latest. apply render_pending_total.
  - intros D form latest. apply render_pending_total.
Qed.

Lemma unknown_category_is_noop_witness :
  apply_toggle (SailState "FULL" "JIB" "REACHING_SPI" true) "staysail" "GENOA"
    = SailState "FULL" "JIB" "REACHING_SPI" true
  ∧ is_Some (toggle_sail display_fixture ∅ "" "" None).
Proof.
  destruct unknown_category_is_noop as (Hnoop & Htotal & _).
  split.
  - destruct (Hnoop (SailState "FULL" "JIB" "REACHING_SPI" true) "staysail" "GENOA")
      as (Hm & Hh & Hd & Hs); [discriminate | discriminate | discriminate |].
    destruct (apply_toggle _ _ _); simpl in *. congruence.
  - apply Htotal.
Defined.

(** * Runs of toggles *)

(** Every category is one of the three the handler knows, or leaves the
    selection alone. *)
Lemma apply_toggle_cases (cur : sail_state) (category value : string) :
  category = "main" ∨ category = "headsail" ∨ category = "downwind"
  ∨ apply_toggle cur category value = cur.
Proof.
  destruct (decide (category = "main")) as [-> | Hm]; [by left|].
  destruct (decide (category = "headsail")) as [-> | Hh]; [by right; left|].
  destruct (decide (category = "downwind")) as [-> | Hd]; [by right; right; left|].
  right; right; right. by apply apply_toggle_other.
Qed.

Lemma well_formed_step (st : sail_state) (category value : string) :
  well_formed st → well_formed (apply_toggle st category value).
Proof.
  intros Hwf.
  destruct (apply_toggle_cases st category value) as [-> | [-> | [-> | ->]]];
    [| | | exact Hwf].
  - rewrite apply_toggle_main. exact Hwf.
  - rewrite apply_toggle_headsail. clear Hwf.
    unfold well_formed, exclusive, staysail_only_with_pair, allowed_pair.
    destruct st as [m h d s]; simpl. toggle_split.
  - rewrite apply_toggle_downwind. clear Hwf.
    unfold well_formed, exclusive, staysail_only_with_pair, allowed_pair.
    destruct st as [m h d s]; simpl. toggle_split.
Qed.

(** X1: a selection in which headsail and downwind exclude each other (the
    pair JIB, REACHING_SPI apart) and the staysail flag is set only over that
    pair stays so under every run of toggles, whatever the categories and
    values; the selection of an empty form is such a start. *)
Theorem run_toggles_well_formed (st : sail_state) (toggles : list (string * string)) :
  well_formed st → well_formed (run_toggles st toggles).
Proof.
  unfold run_toggles. revert st.
  induction toggles as [| [category value] toggles IH]; intros st Hwf; simpl.
  - exact Hwf.
  - apply IH. by apply well_formed_step.
Qed.

Lemma run_toggles_well_formed_witness :
  well_formed (current_selection ∅)
  ∧ well_formed
      (run_toggles (current_selection ∅)
         [("headsail", "JIB"); ("downwind", "REACHING_SPI"); ("main", "FULL");
          ("sheet", "IN"); ("headsail", "GENOA")]).
Proof.
  assert (well_formed (current_selection ∅)) as Hstart.
  { split; [by left | intros Hs; discriminate Hs]. }
  split; [exact Hstart|].
  exact (run_toggles_well_formed _ _ Hstart).
Defined.

(** X2: a toggle leaves [main] empty in exactly two ways: a [main] toggle
    with the empty value on a non-empty main, or any other toggle on a main
    that was empty already.  So a non-empty main stays non-empty as long as
    no empty value is sent. *)
Theorem toggle_main_empty_iff (st : sail_state) (category value : string) :
  main (apply_toggle st category value) = ""
  ↔ (category = "main" ∧ value = "" ∧ main st ≠ "")
    ∨ (category ≠ "main" ∧ main st = "").
Proof.
  destruct (apply_toggle_cases st category value) as [-> | [-> | [-> | Hsame]]].
  - rewrite apply_toggle_main; simpl. case_decide; simplify_eq/=.
    + split; [intros ->; left; by repeat split | intros [(_ & -> & _) | [Hne _]]; done].
    + split; [discriminate | intros [(_ & -> & Hne) | [Hne _]]; done].
  - rewrite apply_toggle_headsail; simpl.
    repeat case_decide; simpl; (split; [intros ->; by right | intros [[Hc _] | [_ Hm]]; done]).
  - rewrite apply_toggle_downwind; simpl.
    repeat case_decide; simpl; (split; [intros ->; by right | intros [[Hc _] | [_ Hm]]; done]).
  - rewrite Hsame. split.
    + intros Hm. destruct (decide (category = "main")) as [-> | Hc]; [|by right].
      rewrite apply_toggle_main in Hsame.
      left. destruct st as [m h d s]; simpl in *.
      case_decide; simplify_eq/=.
    + intros [(-> & -> & Hne) | [_ Hm]]; [|exact Hm].
      rewrite apply_toggle_main in Hsame. destruct st as [m h d s]; simpl in *.
      case_decide; simplify_eq/=.
Qed.

(** X3: a [main] toggle and a toggle of any other category commute: the
    main state and the sails are set independently of each other. *)
Theorem toggle_main_commutes (st : sail_state) (category value main_value : string) :
  category ≠ "main" →
  apply_toggle (apply_toggle st "main" main_value) category value
  = apply_toggle (apply_toggle st category value) "main" main_value.
Proof.
  intros Hc.
  destruct (decide (category = "headsail")) as [-> | Hh];
    [|destruct (decide (category = "downwind")) as [-> | Hd]].
  - rewrite !apply_toggle_headsail, !apply_toggle_main; simpl.
    destruct st as [m h d s]; simpl. toggle_split.
  - rewrite !apply_toggle_downwind, !apply_toggle_main; simpl.
    destruct st as [m h d s]; simpl. toggle_split.
  - by rewrite !(apply_toggle_other _ category).
Qed.

Lemma toggle_main_commutes_witness :
  apply_toggle (apply_toggle (SailState "DOWN" "JIB" "REACHING_SPI" true) "main" "FULL")
    "downwind" "SPINNAKER"
  = apply_toggle (apply_toggle (SailState "DOWN" "JIB" "REACHING_SPI" true)
                    "downwind" "SPINNAKER") "main" "FULL".
Proof.
  apply toggle_main_commutes. discriminate.
Defined.

(** * The store *)

Lemma elem_of_config_keys (k : string) :
  k ∈ config_keys
  ↔ k = "main" ∨ k = "headsail" ∨ k = "downwind" ∨ k = "staysail_mode"
    ∨ k = "comment".
Proof.
  unfold config_keys. rewrite !elem_of_cons, elem_of_nil. tauto.
Qed.

(** A table built by five inserts carries exactly the five keys. *)
Lemma five_fields_keys (a b c d e : pyval) (k : string) :
  is_Some ((<["main" := a]> (<["headsail" := b]> (<["downwind" := c]>
            (<["staysail_mode" := d]> (<["comment" := e]> ∅)))) : gmap string pyval) !! k)
  ↔ k ∈ config_keys.
Proof.
  rewrite elem_of_config_keys, !lookup_insert_is_Some, lookup_empty, is_Some_alt.
  split.
  - intros [<- | [_ [<- | [_ [<- | [_ [<- | [_ [<- | [_ []]]]]]]]]]]; tauto.
  - intros [-> | [-> | [-> | [-> | ->]]]]; [by left|..]; right; (split; [done|]);
      [by left|..]; right; (split; [done|]); [by left|..]; right; (split; [done|]);
      [by left|]; right; (split; [done|]); by left.
Qed.

Lemma sanitize_clean (val dflt : pyval) :
  dflt ≠ PNone → dflt ≠ PStr "None" → dflt ≠ PStr "NONE" →
  sanitize val dflt ≠ PNone ∧ sanitize val dflt ≠ PStr "None"
  ∧ sanitize val dflt ≠ PStr "NONE".
Proof.
  intros H1 H2 H3. unfold sanitize. case_decide; [done | tauto].
Qed.

Lemma sanitize_str (s dflt : string) :
  sanitize (PStr s) (PStr dflt) = PStr (read_back s dflt).
Proof.
  unfold sanitize, read_back, is_placeholder.
  case_decide; case_bool_decide; try done; exfalso; intuition congruence.
Qed.

(** X4: whatever the latest record holds, and also without one, the
    committed configuration carries exactly the keys main, headsail,
    downwind, staysail_mode and comment, and none of its values other than
    the staysail flag is [None], the string None or the placeholder NONE. *)
Theorem committed_never_placeholder (latest : option (gmap string pyval)) :
  (∀ k, is_Some (get_current_sail_config latest !! k) ↔ k ∈ config_keys)
  ∧ (∀ k v, k ≠ "staysail_mode" →
       get_current_sail_config latest !! k = Some v →
       v ≠ PNone ∧ v ≠ PStr "None" ∧ v ≠ PStr "NONE").
Proof.
  assert (∀ k, is_Some (get_current_sail_config latest !! k) ↔ k ∈ config_keys)
    as Hkeys.
  { intros k. destruct latest; apply five_fields_keys. }
  split; [exact Hkeys|].
  intros k v Hk Hv.
  assert (k ∈ config_keys) as Hin by (apply Hkeys; by eexists).
  destruct latest as [values|]; simpl in Hv.
  - apply elem_of_config_keys in Hin as [-> | [-> | [-> | [-> | ->]]]];
      try done;
      rewrite ?lookup_insert_eq, ?lookup_insert_ne in Hv by done;
      injection Hv as <-; by apply sanitize_clean.
  - apply elem_of_config_keys in Hin as [-> | [-> | [-> | [-> | ->]]]];
      try done; injection Hv as <-; by repeat split.
Qed.

Lemma committed_never_placeholder_witness :
  get_current_sail_config
    (Some (<["main" := PStr "None"]> (<["headsail" := PStr "NONE"]> ∅)))
    !! "headsail" = Some (PStr "")
  ∧ PStr "" ≠ PStr "NONE".
Proof.
  assert (get_current_sail_config
            (Some (<["main" := PStr "None"]> (<["headsail" := PStr "NONE"]> ∅)))
            !! "headsail" = Some (PStr "")) as Hlook by (vm_compute; reflexivity).
  split; [exact Hlook|].
  destruct (committed_never_placeholder
              (Some (<["main" := PStr "None"]> (<["headsail" := PStr "NONE"]> ∅))))
    as [_ Hclean].
  destruct (Hclean "headsail" (PStr "")) as (_ & _ & Hnone);
    [discriminate | exact Hlook | exact Hnone].
Defined.

Lemma point_fields_lookup (m h d : string) (s : bool) (c : string) :
  point_fields m h d s c !! "main" = Some (PStr m)
  ∧ point_fields m h d s c !! "headsail"
    = Some (PStr (if truthy (PStr h) then h else "NONE"))
  ∧ point_fields m h d s c !! "downwind"
    = Some (PStr (if truthy (PStr d) then d else "NONE"))
  ∧ point_fields m h d s c !! "staysail_mode" = Some (PBool s)
  ∧ point_fields m h d s c !! "comment" = Some (PStr c).
Proof. repeat split. Qed.

(** The placeholder written for an empty sail reads back as the empty sail. *)
Lemma read_back_written (s : string) :
  read_back (if truthy (PStr s) then s else "NONE") "" = read_back s "".
Proof.
  destruct (decide (s = "")) as [-> | Hne]; [reflexivity|].
  simpl. by rewrite bool_decide_eq_true_2.
Qed.

Lemma read_back_id (s dflt : string) :
  is_placeholder dflt = false →
  read_back s dflt = s ↔ is_placeholder s = false.
Proof.
  intros Hd. unfold read_back.
  destruct (is_placeholder s) eqn:Hs; [|done].
  split; [intros <-; congruence | discriminate].
Qed.

(** What the reader of the current configuration makes of a written point. *)
Lemma read_point_fields (values : gmap string pyval) (m h d : string) (s : bool)
    (c : string) :
  same_fields values (point_fields m h d s c) →
  get_current_sail_config (Some values)
  = config_dict (SailState (read_back m "DOWN") (read_back h "") (read_back d "") s)
      (read_back c "").
Proof.
  intros Hsame.
  destruct (point_fields_lookup m h d s c) as (Hm & Hh & Hd & Hs & Hc).
  unfold get_current_sail_config, dict_get, dict_get_or.
  rewrite (Hsame "main"), (Hsame "headsail"), (Hsame "downwind"),
    (Hsame "staysail_mode"), (Hsame "comment")
    by (apply elem_of_config_keys; tauto).
  rewrite Hm, Hh, Hd, Hs, Hc. cbv [default from_option id].
  rewrite !sanitize_str, !read_back_written. reflexivity.
Qed.

Lemma config_dict_inj (st st' : sail_state) (c c' : string) :
  config_dict st c = config_dict st' c' → st = st' ∧ c = c'.
Proof.
  intros Heq.
  assert (∀ k, config_dict st c !! k = config_dict st' c' !! k) as Hk
    by (intros k; by rewrite Heq).
  pose proof (Hk "main") as H1. pose proof (Hk "headsail") as H2.
  pose proof (Hk "downwind") as H3. pose proof (Hk "staysail_mode") as H4.
  pose proof (Hk "comment") as H5.
  destruct st, st'. vm_compute in H1, H2, H3, H4, H5. by simplify_eq.
Qed.

(** X5: reading the current configuration from a record that holds the
    fields [write_sail_config] wrote gives the written selection with every
    string None or NONE replaced: by DOWN in main, by the empty string in
    headsail, downwind and comment.  An empty headsail or downwind, written
    as the placeholder NONE, comes back empty. *)
Theorem read_after_write (values : gmap string pyval) (m h d : string) (s : bool)
    (c : string) :
  same_fields values (point_fields m h d s c) →
  get_current_sail_config (Some values)
  = config_dict (SailState (read_back m "DOWN") (read_back h "") (read_back d "") s)
      (read_back c "").
Proof. apply read_point_fields. Qed.

Lemma read_after_write_witness :
  get_current_sail_config
    (Some (<["vessel" := PStr "morticia"]> (point_fields "FULL" "" "NONE" true "None")))
  = config_dict (SailState "FULL" "" "" true) "".
Proof.
  apply (read_after_write _ "FULL" "" "NONE" true "None").
  intros k Hk. apply elem_of_config_keys in Hk.
  apply lookup_insert_ne. intros <-. destruct Hk as [? | [? | [? | [? | ?]]]]; discriminate.
Defined.

(** X6: after a save whose record is the latest, the configuration read back
    is the one the form submitted (pending selection and comment) exactly
    when none of the submitted main, headsail, downwind and comment is the
    string None or NONE. *)
Theorem save_reload_lossless_iff (form : gmap string string)
    (values : gmap string pyval) :
  same_fields values (save_fields form) →
  get_current_sail_config (Some values)
    = config_dict (current_selection form) (form_get form "comment" "")
  ↔ is_placeholder (main (current_selection form)) = false
    ∧ is_placeholder (headsail (current_selection form)) = false
    ∧ is_placeholder (downwind (current_selection form)) = false
    ∧ is_placeholder (form_get form "comment" "") = false.
Proof.
  intros Hsame. unfold save_fields in Hsame.
  rewrite (read_point_fields _ _ _ _ _ _ Hsame).
  unfold current_selection; simpl.
  rewrite <- (read_back_id (form_get form "pending_main" "DOWN") "DOWN") by done.
  rewrite <- (read_back_id (form_get form "pending_headsail" "") "") by done.
  rewrite <- (read_back_id (form_get form "pending_downwind" "") "") by done.
  rewrite <- (read_back_id (form_get form "comment" "") "") by done.
  split.
  - intros [Hst Hc]%config_dict_inj. by injection Hst as -> -> ->.
  - intros (-> & -> & -> & ->). reflexivity.
Qed.

Lemma save_reload_lossless_iff_witness :
  let form : gmap string string :=
    <["pending_main" := "FULL"]> (<["pending_headsail" := "JIB"]> ∅) in
  same_fields (save_fields form) (save_fields form)
  ∧ get_current_sail_config (Some (save_fields form))
    = config_dict (current_selection form) (form_get form "comment" "").
Proof.
  intros form.
  assert (same_fields (save_fields form) (save_fields form)) as Hsame
    by (intros k _; reflexivity).
  split; [exact Hsame|].
  destruct (save_reload_lossless_iff form (save_fields form) Hsame) as [_ Hback].
  apply Hback. repeat split.
Defined.




(** * The history *)









Lemma config_dict_lookup (st : sail_state) (c : string) :
  config_dict st c !! "main" = Some (PStr (main st))
  ∧ config_dict st c !! "headsail" = Some (PStr (headsail st))
  ∧ config_dict st c !! "downwind" = Some (PStr (downwind st))
  ∧ config_dict st c !! "staysail_mode" = Some (PBool (staysail_mode st))
  ∧ config_dict st c !! "comment" = Some (PStr c).
Proof. repeat split. Qed.

(** The history text of a configuration of strings with a main. *)
Lemma history_config_dict (SAIL_DISPLAY : gmap string string) (st : sail_state)
    (c : string) :
  main st ≠ "" →
  history_config SAIL_DISPLAY (config_dict st c)
  = Some (history_of SAIL_DISPLAY (main st) (headsail st) (downwind st)
            (staysail_mode st)).
Proof.
  intros Hm. destruct (config_dict_lookup st c) as (H1 & H2 & H3 & H4 & _).
  unfold history_config, dict_item, history_of. rewrite H1, H2, H3, H4.
  destruct st as [m h d s]; simpl in *.
  rewrite (bool_decide_eq_true_2 (m ≠ "")), (bool_decide_eq_false_2 (m = "")) by done.
  destruct (decide (h = "")) as [-> | Hh], (decide (d = "")) as [-> | Hd]; simpl;
    rewrite ?(bool_decide_eq_true_2 (h ≠ "")), ?(bool_decide_eq_false_2 (h = "")),
      ?(bool_decide_eq_true_2 (d ≠ "")), ?(bool_decide_eq_false_2 (d = "")) by done;
    destruct s; reflexivity.
Qed.

(** What the history reader makes of a written point. *)
Lemma recent_point_fields (values : gmap string pyval) (m h d : string) (s : bool)
    (c : string) :
  same_fields values (point_fields m h d s c) →
  recent_entry values
  = config_dict
      (SailState (if bool_decide (read_back m "" = "") then "DOWN" else read_back m "")
         (read_back h "") (read_back d "") s)
      (read_back c "").
Proof.
  intros Hsame.
  destruct (point_fields_lookup m h d s c) as (Hm & Hh & Hd & Hs & Hc).
  unfold recent_entry, dict_get, dict_get_or.
  rewrite (Hsame "main"), (Hsame "headsail"), (Hsame "downwind"),
    (Hsame "staysail_mode"), (Hsame "comment")
    by (apply elem_of_config_keys; tauto).
  rewrite Hm, Hh, Hd, Hs, Hc. cbv [default from_option id].
  change (sanitize_entry ?v) with (sanitize v (PStr "")).
  rewrite !sanitize_str, !read_back_written.
  unfold config_dict; simpl. do 2 f_equal.
  unfold py_or; simpl. by repeat case_bool_decide.
Qed.

(** X9: the history text of a record that holds the fields
    [write_sail_config] wrote is the M: part with the written main (DOWN
    when it is empty, None or NONE), then the display name of the headsail
    with (S) when the staysail flag is set, then the display name of the
    downwind sail, joined by " + "; an empty sail, written as the
    placeholder, is left out. *)
Theorem history_after_write (SAIL_DISPLAY : gmap string string)
    (values : gmap string pyval) (m h d : string) (s : bool) (c : string) :
  same_fields values (point_fields m h d s c) →
  history_config SAIL_DISPLAY (recent_entry values)
  = Some (history_of SAIL_DISPLAY (read_back m "") (read_back h "") (read_back d "") s).
Proof.
  intros Hsame. rewrite (recent_point_fields _ _ _ _ _ _ Hsame).
  rewrite history_config_dict; simpl.
  - unfold history_of. by repeat case_bool_decide.
  - by case_bool_decide.
Qed.

Lemma history_after_write_witness :
  history_config display_fixture
    (recent_entry (point_fields "FULL" "JIB" "" true "tack"))
  = Some "M:FULL + Jib(S)".
Proof.
  rewrite (history_after_write display_fixture _ "FULL" "JIB" "" true "tack").
  - vm_compute. reflexivity.
  - intros k _. reflexivity.
Defined.

(** * More on the summary line *)

(** X10: on a configuration whose sails hold a string or nothing, the
    summary is All sails down only when nothing is set: main reads as down
    and headsail and downwind read as unset.  No main state and no display
    name can produce that text, since every joined summary starts with its
    Main: part. *)
Theorem summary_all_down_iff (SAIL_DISPLAY : gmap string string)
    (config : gmap string pyval) :
  text_fields config →
  format_config_summary SAIL_DISPLAY config = Some "All sails down"
  ↔ reads_down (text_of (dict_get config "main")) = true
    ∧ reads_unset (text_of (dict_get config "headsail")) = true
    ∧ reads_unset (text_of (dict_get config "downwind")) = true.
Proof.
  intros Htext. rewrite format_config_summary_text by done. unfold summary_of.
  destruct (reads_down _), (reads_unset (text_of (dict_get config "headsail"))),
    (reads_unset (text_of (dict_get config "downwind"))); simpl;
    (split; [intros Heq; simpl in Heq; try discriminate Heq; by repeat split
            | intros (? & ? & ?); try discriminate; reflexivity]).
Qed.

Lemma summary_all_down_iff_witness :
  format_config_summary display_fixture
    (<["main" := PStr "None"]> (<["downwind" := PNone]> ∅))
  = Some "All sails down".
Proof.
  apply summary_all_down_iff.
  - by repeat split.
  - by repeat split.
Defined.

(** X11: the formatter raises, on configurations whose values are [None],
    booleans or strings, exactly when headsail or downwind is the boolean
    True: a missing, null, False or empty sail is skipped, any string is
    joined, and main may hold any of these values. *)
Theorem format_config_summary_raises_iff (SAIL_DISPLAY : gmap string string)
    (config : gmap string pyval) :
  format_config_summary SAIL_DISPLAY config = None
  ↔ dict_get config "headsail" = PBool true ∨ dict_get config "downwind" = PBool true.
Proof.
  unfold format_config_summary.
  set (main0 := py_or (dict_get config "main") (PStr "DOWN")).
  set (is_down := bool_decide (main0 = PStr "DOWN" ∨ main0 = PStr "None")).
  replace (if is_down then [PStr "Main: DOWN"] else [PStr ("Main: " +:+ py_str main0)])
    with [PStr (if is_down then "Main: DOWN" else "Main: " +:+ py_str main0)]
    by (by destruct is_down).
  generalize (if is_down then "Main: DOWN" else "Main: " +:+ py_str main0) as part.
  generalize (bool_decide ((if is_down then PStr "DOWN" else main0) = PStr "DOWN")) as flag.
  clear main0 is_down. intros flag part.
  generalize (truthy (dict_get config "staysail_mode")) as s.
  generalize (dict_get config "headsail") as h.
  generalize (dict_get config "downwind") as d.
  clear config. intros d h s.
  destruct h as [| [|] | h], d as [| [|] | d]; unfold py_or, is_selected, py_ne; simpl;
    repeat (match goal with
            | |- context [if ?b then _ else _] => destruct b eqn:?
            end; simpl);
    try (split; [discriminate | intros [? | ?]; discriminate]);
    try (split; [intros _; by left | reflexivity]);
    try (split; [intros _; by right | reflexivity]);
    match goal with
    | H : _ && false && _ = true |- _ => rewrite andb_false_r in H; discriminate H
    end.
Qed.

(** * The position of the boat *)

Lemma is_not_none_true {num : Type} (v : json num) :
  is_not_none v = true ↔ v ≠ JNull.
Proof. destruct v; simpl; split; done. Qed.

(** X12: the position reader returns a position exactly when the request
    succeeds with status 200 and a body that is an object whose [value] is an
    object with a latitude and a longitude that are present and not null;
    the two are handed on as they are, a zero included. *)
Theorem get_boat_position_some_iff {num : Type}
    (response : option (Z * json num)) (lat lon : json num) :
  get_boat_position response = Some (Some (lat, lon))
  ↔ ∃ members pos,
      response = Some (200%Z, JObj members)
      ∧ members !! "value" = Some (JObj pos)
      ∧ pos !! "latitude" = Some lat ∧ pos !! "longitude" = Some lon
      ∧ lat ≠ JNull ∧ lon ≠ JNull.
Proof.
  split.
  - intros H. destruct response as [[status data]|]; simpl in H; [|discriminate].
    case_decide; [subst status | discriminate].
    destruct data as [| | | | | members]; simpl in H; try discriminate.
    destruct (members !! "value") as [v|] eqn:Hv; simpl in H.
    + destruct v as [| | | | | pos]; simpl in H; try discriminate.
      destruct (pos !! "latitude") as [la|] eqn:Hla,
        (pos !! "longitude") as [lo|] eqn:Hlo; simpl in H;
        try (rewrite ?andb_false_r in H; discriminate).
      destruct (is_not_none la) eqn:Ela, (is_not_none lo) eqn:Elo;
        simpl in H; try discriminate.
      injection H as <- <-. exists members, pos.
      apply is_not_none_true in Ela, Elo. by repeat split.
    + rewrite lookup_empty in H; simpl in H. discriminate.
  - intros (members & pos & -> & Hv & Hla & Hlo & Hn1 & Hn2); simpl.
    rewrite Hv; simpl. rewrite Hla, Hlo; simpl.
    apply is_not_none_true in Hn1, Hn2. by rewrite Hn1, Hn2.
Qed.

(** X13: the position reader lets an exception out exactly when the status
    is 200 and the body is not an object, or its [value] is present and not
    an object (a null [value], for one); a failed request, another status,
    or a missing [value], latitude or longitude give no position instead. *)
Theorem get_boat_position_raises_iff {num : Type} (response : option (Z * json num)) :
  get_boat_position response = None
  ↔ ∃ data,
      response = Some (200%Z, data)
      ∧ (is_dict data = false
         ∨ ∃ members v, data = JObj members ∧ members !! "value" = Some v
                        ∧ is_dict v = false).
Proof.
  split.
  - intros H. destruct response as [[status data]|]; simpl in H; [|discriminate].
    case_decide; [subst status | discriminate].
    exists data. split; [reflexivity|].
    destruct data as [| | | | | members]; try (by left). right.
    simpl in H. destruct (members !! "value") as [v|] eqn:Hv; simpl in H.
    + exists members, v. repeat split; [done|].
      destruct v as [| | | | | pos]; try reflexivity.
      simpl in H. destruct (is_not_none _ && is_not_none _); discriminate.
    + destruct (is_not_none _ && is_not_none _); discriminate.
  - intros (data & -> & [Hd | (members & v & -> & Hv & Hd)]); simpl.
    + destruct data; try reflexivity. discriminate.
    + rewrite Hv; simpl. destruct v; try reflexivity. discriminate.
Qed.
